(** * FreakSearch backend (backend/main.py): authentication and chatbot endpoints

    A shallow embedding of the request handlers of [main1.py] together with
    the small amount of Python, FastAPI, passlib and MySQL behaviour they
    rely on:

    - Python exceptions are values of [exn]; a computation that may raise
      returns a [result]; [try]/[except]/[finally] are combinators whose
      handler clause is guarded by the [isinstance] test of the source.
    - The credential store is a [session]: the committed rows of the
      [users] table and the rows written by the open transaction.  Every
      statement sent to the store may fail; what fails is fixed by a
      [db_env], one per request.
    - The password context and the two model artifacts are external
      libraries; they are records of functions ([CryptContext],
      [Vectorizer], [Model]) over which the handlers are parametrised.
    - [print] calls are not modelled (standard output is not observable
      through the HTTP interface). *)

From Stdlib Require Import String Ascii List Bool Arith Lia.
Import ListNotations.
Local Open Scope string_scope.
Local Open Scope list_scope.

(* ===================================================================== *)
(** ** Python exceptions *)
(* ===================================================================== *)

Module Py.

(** The exception classes that occur in the handlers or in the libraries
    they call.  [MySQLError] is [mysql.connector.Error]. *)
Inductive exn_class : Type :=
| FileNotFoundError
| PermissionError
| UnpicklingError
| ValueError
| IndexError
| UnknownHashError
| MySQLError
| KeyboardInterrupt.

(** A raised Python error: its class and [str(e)]. *)
Definition py_error : Type := (exn_class * string)%type.

Inductive exn : Type :=
| HTTPException (status_code : nat) (detail : string)
| PyExc (cls : exn_class) (msg : string).

Definition exn_of (f : py_error) : exn := PyExc (fst f) (snd f).

(** [isinstance(e, Exception)]: everything but the [BaseException]-only
    classes. *)
Definition class_is_Exception (c : exn_class) : bool :=
  match c with
  | KeyboardInterrupt => false
  | _ => true
  end.

Definition is_Exception (e : exn) : bool :=
  match e with
  | HTTPException _ _ => true
  | PyExc c _ => class_is_Exception c
  end.

(** [isinstance(e, FileNotFoundError)]. *)
Definition is_FileNotFoundError (e : exn) : bool :=
  match e with
  | PyExc FileNotFoundError _ => true
  | _ => false
  end.

(** [isinstance(e, mysql.connector.Error)]. *)
Definition is_mysql_Error (e : exn) : bool :=
  match e with
  | PyExc MySQLError _ => true
  | _ => false
  end.

(** [str(e)], as interpolated by an f-string. *)
Definition exc_str (e : exn) : string :=
  match e with
  | HTTPException _ d => d
  | PyExc _ m => m
  end.

Inductive result (A : Type) : Type :=
| Ok (a : A)
| Raise (e : exn).
Arguments Ok {A} a.
Arguments Raise {A} e.

Definition rbind {A B : Type} (c : result A) (k : A -> result B) : result B :=
  match c with
  | Ok a => k a
  | Raise e => Raise e
  end.

(** [try: body  except <cls> as e: handler e]. *)
Definition rtry {A : Type} (body : result A) (cls : exn -> bool)
    (handler : exn -> result A) : result A :=
  match body with
  | Ok a => Ok a
  | Raise e => if cls e then handler e else Raise e
  end.

(** [xs[0]]. *)
Definition subscript0 {A : Type} (xs : list A) : result A :=
  match xs with
  | x :: _ => Ok x
  | [] => Raise (PyExc IndexError "list index out of range")
  end.

End Py.
Import Py.

Declare Scope result_scope.
Delimit Scope result_scope with result.
Notation "x <- c ;; k" := (rbind c (fun x => k))
  (at level 61, c at next level, right associativity) : result_scope.

(* ===================================================================== *)
(** ** HTTP layer *)
(* ===================================================================== *)

(** The JSON objects the handlers build: [{"message": s}], [{"text": s}],
    FastAPI's [{"detail": s}], and Starlette's plain-text body. *)
Inductive body : Type :=
| Message (s : string)
| Text (s : string)
| Detail (s : string)
| Plain (s : string).

Record response : Type := { status : nat; content : body }.

(** What FastAPI sends for the outcome of a path operation: the returned
    dictionary with status 200, an [HTTPException] as its status and
    detail, and any other exception as a 500 from the server-error
    middleware. *)
Definition respond (r : result body) : response :=
  match r with
  | Ok b => {| status := 200; content := b |}
  | Raise (HTTPException st d) => {| status := st; content := Detail d |}
  | Raise (PyExc _ _) => {| status := 500; content := Plain "Internal Server Error" |}
  end.

(* ===================================================================== *)
(** ** Password hashing *)
(* ===================================================================== *)

(** [passlib.context.CryptContext]: [ctx_hash secret salt] is
    [pwd_context.hash(secret)] when the generated salt is [salt];
    [ctx_verify secret hash] is [pwd_context.verify(secret, hash)]. *)
Record CryptContext : Type := {
  ctx_hash : string -> string -> result string;
  ctx_verify : string -> string -> result bool
}.

Section Hashing.
Variable pwd_context : CryptContext.

Definition verify_password (plain_password hashed_password : string)
  : result bool :=
  ctx_verify pwd_context plain_password hashed_password.

Definition hash_password (salt password : string) : result string :=
  ctx_hash pwd_context password salt.
End Hashing.

(* ===================================================================== *)
(** ** Intent classifier *)
(* ===================================================================== *)

Section Classifier.
(** The vectorised text (a sparse matrix in the source). *)
Variable Features : Type.

Record Vectorizer : Type := { transform : list string -> result Features }.
Record Model : Type := { predict : Features -> result (list string) }.

(** The two module-level globals.  [None] is Python's [None]; a loaded
    estimator is truthy. *)
Record artifacts : Type := {
  vectorizer : option Vectorizer;
  model : option Model
}.

(** [vectorizer = model = None]. *)
Definition both_none : artifacts := {| vectorizer := None; model := None |}.

(** What [joblib.load] does on each of the two fixed paths. *)
Record artifact_files : Type := {
  load_vectorizer : result Vectorizer;
  load_model : result Model
}.

(** Lines 66-74: the module-level [try]/[except FileNotFoundError].
    [Raise] is an exception that escapes the module body, so the
    application fails to start. *)
Definition load_artifacts (fs : artifact_files) : result artifacts :=
  rtry
    (v <- load_vectorizer fs ;;
     m <- load_model fs ;;
     Ok {| vectorizer := Some v; model := Some m |})%result
    is_FileNotFoundError
    (fun _ => Ok both_none).

Definition predict_intent_with_custom_model (a : artifacts) (text : string)
  : result string :=
  match model a, vectorizer a with
  | Some m, Some v =>
      rtry
        (text_vectorized <- transform v [text] ;;
         prediction <- predict m text_vectorized ;;
         subscript0 prediction)%result
        is_Exception
        (fun _ => Ok "unknown")
  | _, _ => Ok "unknown"
  end.

(** Pydantic request models. *)
Record ChatPart : Type := { text : string }.
Record ChatMessage : Type := { role : string; parts : list ChatPart }.
Record ChatRequest : Type := {
  message : string;
  chatHistory : list ChatMessage
}.

Definition fallback_response : string :=
  "I'm sorry, I don't understand that yet. Can you please rephrase?".

(** The [if]/[elif] chain of [handle_chat]. *)
Definition bot_response (intent : string) : string :=
  if intent =? "greeting" then
    "Hello there! How can I assist you today?"
  else if intent =? "goodbye" then
    "Goodbye! Have a great day."
  else if intent =? "about_freaksearch" then
    "FreakSearch is a platform for verified information."
  else if intent =? "fact_check_request" then
    "My fact-checking capabilities are currently offline."
  else
    fallback_response.

Definition handle_chat (a : artifacts) (request : ChatRequest) : result body :=
  (let user_message := message request in
   intent <- predict_intent_with_custom_model a user_message ;;
   Ok (Text (bot_response intent)))%result.

(** The classifier is disabled when either global is [None]. *)
Definition disabled (a : artifacts) : Prop :=
  vectorizer a = None \/ model a = None.
End Classifier.

Arguments transform {Features} _ _.
Arguments predict {Features} _ _.
Arguments vectorizer {Features} _.
Arguments model {Features} _.
Arguments load_vectorizer {Features} _.
Arguments load_model {Features} _.
Arguments load_artifacts {Features} _.
Arguments both_none {Features}.
Arguments predict_intent_with_custom_model {Features} _ _.
Arguments handle_chat {Features} _ _.
Arguments disabled {Features} _.

(* ===================================================================== *)
(** ** Credential store *)
(* ===================================================================== *)

(** A row of [users]. *)
Record user_row : Type := { db_username : string; password_hash : string }.

(** The store as one connection sees it: the committed table and the rows
    inserted by the transaction that is still open. *)
Record session : Type := { users : list user_row; pending : list user_row }.

(** [mysql.connector.connect]: a connection object, whose [is_connected()]
    answers [connected], or an exception. *)
Inductive connect_outcome : Type :=
| ConnectOk (connected : bool)
| ConnectRaises (e : py_error).

(** What the outside world does during one request: the outcome of the
    connection attempt, the error (if any) with which each statement
    fails, and the salt the password context draws. *)
Record db_env : Type := {
  connect : connect_outcome;
  select_fault : option py_error;
  insert_fault : option py_error;
  commit_fault : option py_error;
  rollback_fault : option py_error;
  salt : string
}.

(** Handlers run in a state-and-exception monad; the state survives a
    raised exception, as the store survives a failed request. *)
Definition M (A : Type) : Type := db_env -> session -> result A * session.

Definition ret {A : Type} (a : A) : M A := fun _ s => (Ok a, s).

Definition raise {A : Type} (e : exn) : M A := fun _ s => (Raise e, s).

Definition bind {A B : Type} (c : M A) (k : A -> M B) : M B :=
  fun env s =>
    match c env s with
    | (Ok a, s') => k a env s'
    | (Raise e, s') => (Raise e, s')
    end.

Definition lift {A : Type} (r : result A) : M A := fun _ s => (r, s).

(** [try: body  except <cls> as e: handler e]. *)
Definition try_except {A : Type} (c : M A) (cls : exn -> bool)
    (handler : exn -> M A) : M A :=
  fun env s =>
    match c env s with
    | (Ok a, s') => (Ok a, s')
    | (Raise e, s') => if cls e then handler e env s' else (Raise e, s')
    end.

(** [try: body  finally: fin]: [fin] always runs; an exception of [fin]
    replaces the outcome of [body]. *)
Definition try_finally {A : Type} (c : M A) (fin : M unit) : M A :=
  fun env s =>
    let (r, s') := c env s in
    match fin env s' with
    | (Ok _, s'') => (r, s'')
    | (Raise e, s'') => (Raise e, s'')
    end.

Declare Scope M_scope.
Delimit Scope M_scope with M.
Notation "x <- c ;; k" := (bind c (fun x => k))
  (at level 61, c at next level, right associativity) : M_scope.
Notation "c ;; k" := (bind c (fun _ => k))
  (at level 61, right associativity) : M_scope.

Definition fail_with {A : Type} (f : option py_error) (ok : session -> A * session)
  : M A :=
  fun _ s =>
    match f with
    | Some e => (Raise (exn_of e), s)
    | None => let (a, s') := ok s in (Ok a, s')
    end.

(** A connection handle; the object is truthy, only [None] is not. *)
Inductive connection : Type := Connection (connected : bool).

Definition is_connected (c : connection) : bool :=
  let (b) := c in b.

Definition mysql_connect : M connection :=
  fun env s =>
    match connect env with
    | ConnectOk b => (Ok (Connection b), s)
    | ConnectRaises e => (Raise (exn_of e), s)
    end.

(** The [WHERE username = %s] test (binary comparison). *)
Definition matches (name : string) (r : user_row) : bool := db_username r =? name.

(** [SELECT * FROM users WHERE username = %s]: the rows visible to the
    connection whose username equals the parameter. *)
Definition cursor_execute_select (name : string) : M (list user_row) :=
  fun env s =>
    fail_with (select_fault env)
      (fun s => (filter (matches name) (users s ++ pending s), s))
      env s.

(** [cursor.fetchone()]: the first row of the result set, or [None]. *)
Definition fetchone (rows : list user_row) : option user_row := hd_error rows.

(** [INSERT INTO users (username, password_hash) VALUES (%s, %s)]. *)
Definition cursor_execute_insert (name hashed : string) : M unit :=
  fun env s =>
    fail_with (insert_fault env)
      (fun s => (tt, {| users := users s;
                        pending := pending s ++
                          [{| db_username := name; password_hash := hashed |}] |}))
      env s.

Definition conn_commit : M unit :=
  fun env s =>
    fail_with (commit_fault env)
      (fun s => (tt, {| users := users s ++ pending s; pending := [] |}))
      env s.

Definition conn_rollback : M unit :=
  fun env s =>
    fail_with (rollback_fault env)
      (fun s => (tt, {| users := users s; pending := [] |}))
      env s.

(** [conn.close()] does not raise; the server discards the work of a
    transaction that was not committed. *)
Definition conn_close : M unit :=
  fun _ s => (Ok tt, {| users := users s; pending := [] |}).

(** Lines 43-56.  When [is_connected()] is false the function falls off
    its end and returns [None]. *)
Definition get_db_connection : M (option connection) :=
  try_except
    (conn <- mysql_connect ;;
     if is_connected conn then ret (Some conn) else ret None)%M
    is_mysql_Error
    (fun _ => ret None).

(* ===================================================================== *)
(** ** Authentication endpoints *)
(* ===================================================================== *)

Record UserAuth : Type := { username : string; password : string }.

(** The store as a new connection finds it: no transaction is open. *)
Definition fresh_session (table : list user_row) : session :=
  {| users := table; pending := [] |}.

Section Auth.
Variable pwd_context : CryptContext.

(** [hash_password(password)] with the salt this request draws. *)
Definition hash_fresh (password : string) : M string :=
  fun env s => (hash_password pwd_context (salt env) password, s).

(** [POST /api/register], lines 98-124. *)
Definition register_user (user : UserAuth) : M body :=
  (conn <- get_db_connection ;;
   match conn with
   | None => raise (HTTPException 500 "Database connection failed.")
   | Some _ =>
       rows <- cursor_execute_select (username user) ;;
       match fetchone rows with
       | Some _ =>
           conn_close ;;
           raise (HTTPException 400 "Username already exists.")
       | None =>
           hashed_pw <- hash_fresh (password user) ;;
           try_finally
             (try_except
                (cursor_execute_insert (username user) hashed_pw ;;
                 conn_commit)
                is_mysql_Error
                (fun e =>
                   conn_rollback ;;
                   raise (HTTPException 500
                            ("Failed to register user: " ++ exc_str e))))
             conn_close ;;
           ret (Message ("User '" ++ username user ++ "' registered successfully."))
       end
   end)%M.

(** [POST /api/login], lines 126-141. *)
Definition login_user (user : UserAuth) : M body :=
  (conn <- get_db_connection ;;
   match conn with
   | None => raise (HTTPException 500 "Database connection failed.")
   | Some _ =>
       rows <- cursor_execute_select (username user) ;;
       let db_user := fetchone rows in
       conn_close ;;
       match db_user with
       | None => raise (HTTPException 401 "Invalid username or password.")
       | Some row =>
           ok <- lift (verify_password pwd_context (password user)
                         (password_hash row)) ;;
           if ok then ret (Message "Login successful!")
           else raise (HTTPException 401 "Invalid username or password.")
       end
   end)%M.

(** One request against the table: the handler runs on a connection of
    its own and the client sees FastAPI's rendering of its outcome. *)
Definition serve (handler : M body) (env : db_env) (table : list user_row)
  : response * list user_row :=
  let (r, s) := handler env (fresh_session table) in
  (respond r, users s).

(** A sequence of register calls, each with its own environment. *)
Fixpoint register_all (calls : list (db_env * UserAuth)) (table : list user_row)
  : list user_row :=
  match calls with
  | [] => table
  | (env, user) :: rest =>
      register_all rest (snd (serve (register_user user) env table))
  end.
End Auth.

(** The store answers: a live connection is obtained and the [SELECT]
    executes. *)
Definition store_available (env : db_env) : Prop :=
  connect env = ConnectOk true /\ select_fault env = None.


Definition usernames (table : list user_row) : list string :=
  map db_username table.

Definition has_user (table : list user_row) (name : string) : Prop :=
  In name (usernames table).

(* ===================================================================== *)
(** ** Media upload *)
(* ===================================================================== *)

Section Uploads.
(** [pathlib.Path] values; two paths are equal when they name the same
    file. *)
Variable Path : Type.
Variable Path_eq_dec : forall p q : Path, {p = q} + {p <> q}.

(** [base / name]. *)
Variable joinpath : Path -> string -> Path.
Variable UPLOADS_DIR : Path.

(** The content of every file; [None] where there is no file. *)
Definition filesystem : Type := Path -> option string.

Definition write_file (p : Path) (data : string) (fs : filesystem) : filesystem :=
  fun q => if Path_eq_dec q p then Some data else fs q.

(** Starlette's [UploadFile]: the client-supplied name and what
    [await file.read()] gives. *)
Record UploadFile : Type := { filename : string; read : result string }.

(** [POST /api/upload-media], lines 172-178.  [open(file_path, "wb")]
    fails with [open_fault] or creates the file empty (an existing file is
    truncated) before [file.read()] is awaited; leaving the [with] block
    closes the file. *)
Definition upload_media (open_fault : option py_error) (file : UploadFile)
    (fs : filesystem) : result body * filesystem :=
  let file_path := joinpath UPLOADS_DIR (filename file) in
  match open_fault with
  | Some e => (Raise (exn_of e), fs)
  | None =>
      let opened := write_file file_path "" fs in
      match read file with
      | Ok data =>
          (Ok (Message ("File '" ++ filename file ++ "' uploaded successfully.")),
           write_file file_path data opened)
      | Raise e => (Raise e, opened)
      end
  end.
End Uploads.

Arguments write_file {Path} _ _ _ _ _.
Arguments upload_media {Path} _ _ _ _ _ _.

(** Further instances.  Paths are strings and [/] puts a separator between
    the directory and the name. *)
Module Scenarios.

Definition joinpath (base name : string) : string := base ++ "/" ++ name.

Definition uploads_dir : string := "/srv/uploads".

Definition empty_disk : filesystem string := fun _ => None.

Definition cat_png : UploadFile := {| filename := "cat.png"; read := Ok "PNG1" |}.

Definition cat_png_again : UploadFile := {| filename := "cat.png"; read := Ok "PNG2" |}.

Definition cat_png_broken : UploadFile :=
  {| filename := "cat.png"; read := Raise (PyExc ValueError "I/O operation on closed file") |}.

(** A store whose connection object reports that it is not connected. *)
Definition not_connected : db_env := {|
  connect := ConnectOk false;
  select_fault := None;
  insert_fault := None;
  commit_fault := None;
  rollback_fault := None;
  salt := "s"
|}.

(** A connection attempt that fails before it reaches the server. *)
Definition misconfigured : db_env := {|
  connect := ConnectRaises (ValueError, "port must be an integer");
  select_fault := None;
  insert_fault := None;
  commit_fault := None;
  rollback_fault := None;
  salt := "s"
|}.

(** A store on which the [SELECT] fails. *)
Definition select_refused : db_env := {|
  connect := ConnectOk true;
  select_fault := Some (MySQLError, "1146: Table 'users' doesn't exist");
  insert_fault := None;
  commit_fault := None;
  rollback_fault := None;
  salt := "s"
|}.

Definition bob : UserAuth := {| username := "bob"; password := "pw2" |}.


End Scenarios.

(** The password context raises Python errors only: verification never
    raises an [HTTPException]. *)
Definition verify_raises_python_errors (pwd_context : CryptContext) : Prop :=
  forall (secret hashed : string) (e : exn),
    ctx_verify pwd_context secret hashed = Raise e ->
    exists cls msg, e = PyExc cls msg.

(** Proof automation for the handlers. *)
Ltac unfold_handlers :=
  unfold register_user, login_user, get_db_connection, mysql_connect,
    cursor_execute_select, cursor_execute_insert, conn_commit, conn_rollback,
    conn_close, hash_fresh, hash_password, verify_password, try_except,
    try_finally, fail_with, bind, ret, raise, lift, fetchone, is_connected.

(** Case analysis on whatever the handler is still waiting for: the
    innermost scrutinee that is not itself a case analysis. *)
Ltac case_outcome :=
  match goal with
  | |- context [match ?x with _ => _ end] =>
      lazymatch x with
      | context [match _ with _ => _ end] => fail
      | _ => destruct x eqn:?
      end; simpl
  end.

(* ===================================================================== *)
(** ** A reference instance *)
(* ===================================================================== *)

(** Concrete libraries and environments on which the handlers can be run.
    The password context follows passlib in its identification step: a
    stored string that carries none of the bcrypt identifiers is rejected
    with [UnknownHashError] before any digest is computed.  The digest
    itself is a placeholder, not bcrypt. *)
Module Reference.

Definition bcrypt_idents : list string := ["$2$"; "$2a$"; "$2x$"; "$2y$"; "$2b$"].

Definition identify (hashed : string) : bool :=
  existsb (fun ident => prefix ident hashed) bcrypt_idents.

Definition context : CryptContext := {|
  ctx_hash := fun secret salt => Ok ("$2b$" ++ secret ++ "$" ++ salt)%string;
  ctx_verify := fun secret hashed =>
    if identify hashed then Ok (prefix ("$2b$" ++ secret ++ "$")%string hashed)
    else Raise (PyExc UnknownHashError "hash could not be identified")
|}.

(** A store that answers every statement. *)
Definition healthy (salt : string) : db_env := {|
  connect := ConnectOk true;
  select_fault := None;
  insert_fault := None;
  commit_fault := None;
  rollback_fault := None;
  salt := salt
|}.


(** A store on which the [COMMIT] is refused. *)
Definition commit_refused : db_env := {|
  connect := ConnectOk true;
  select_fault := None;
  insert_fault := None;
  commit_fault := Some (MySQLError, "2013: Lost connection to MySQL server");
  rollback_fault := None;
  salt := "s"
|}.

Definition alice : UserAuth := {| username := "alice"; password := "pw1" |}.

Definition alice_row : user_row :=
  {| db_username := "alice"; password_hash := "$2b$pw1$s" |}.

(** A classifier over word lists that knows one greeting. *)
Definition greeter : artifacts (list string) := {|
  vectorizer := Some {| transform := fun docs => Ok docs |};
  model := Some {| predict := fun docs =>
                     Ok (map (fun d => if d =? "hi" then "greeting" else "unknown") docs) |}
|}.

(** A vectorizer that fails on every input. *)
Definition broken_vectorizer : Vectorizer (list string) :=
  {| transform := fun _ => Raise (PyExc ValueError "empty vocabulary") |}.

Definition echo_model : Model (list string) :=
  {| predict := fun docs => Ok docs |}.

Definition no_artifacts : artifacts (list string) := both_none.

(** Neither pickle is on disk. *)
Definition files_absent : artifact_files (list string) := {|
  load_vectorizer := Raise (PyExc FileNotFoundError "No such file or directory");
  load_model := Raise (PyExc FileNotFoundError "No such file or directory")
|}.

(** The vectorizer pickle exists but cannot be read. *)
Definition files_unreadable : artifact_files (list string) := {|
  load_vectorizer := Raise (PyExc PermissionError "Permission denied");
  load_model := Raise (PyExc FileNotFoundError "No such file or directory")
|}.

End Reference.

(* ===================================================================== *)
(** ** Properties of the chatbot *)
(* ===================================================================== *)

Section ChatProperties.
Context {Features : Type}.
Implicit Types (a : artifacts Features) (request : ChatRequest).

Lemma predict_intent_disabled a (text : string) :
  disabled a -> predict_intent_with_custom_model a text = Ok "unknown".
Proof.
  unfold disabled, predict_intent_with_custom_model.
  intros [H | H]; rewrite H; [destruct (model a)|]; reflexivity.
Qed.

(** The classifier never lets an [Exception] out: whatever the two
    estimators do, the outcome is a label. *)
Lemma predict_intent_absorbs (v : Vectorizer Features) (m : Model Features)
    (text : string) (e : exn) :
  predict_intent_with_custom_model {| vectorizer := Some v; model := Some m |} text
    = Raise e ->
  is_Exception e = false.
Proof.
  unfold predict_intent_with_custom_model, rtry; simpl.
  destruct (transform v [text]) as [f | e1]; simpl.
  - destruct (predict m f) as [[| l ls] | e2]; simpl.
    + discriminate.
    + discriminate.
    + destruct (is_Exception e2) eqn:E; [discriminate |].
      intros [= <-]; exact E.
  - destruct (is_Exception e1) eqn:E; [discriminate |].
    intros [= <-]; exact E.
Qed.

Lemma handle_chat_label a request (label : string) :
  predict_intent_with_custom_model a (message request) = Ok label ->
  handle_chat a request = Ok (Text (bot_response label)).
Proof. unfold handle_chat; intros ->; reflexivity. Qed.

Lemma bot_response_default (label : string) :
  label <> "greeting" -> label <> "goodbye" ->
  label <> "about_freaksearch" -> label <> "fact_check_request" ->
  bot_response label = fallback_response.
Proof.
  intros H1 H2 H3 H4. unfold bot_response.
  apply String.eqb_neq in H1, H2, H3, H4.
  rewrite H1, H2, H3, H4. reflexivity.
Qed.
End ChatProperties.

(** Claim C3.  The intent-to-reply mapping of the chatbot is a total
    function with five values: each of the four known labels has its fixed
    reply, every other label (among them "unknown") has the fallback
    reply, and the reply the endpoint sends is the mapping applied to the
    label the classifier returns. *)
Theorem bot_response_mapping :
  bot_response "greeting" = "Hello there! How can I assist you today?" /\
  bot_response "goodbye" = "Goodbye! Have a great day." /\
  bot_response "about_freaksearch" =
    "FreakSearch is a platform for verified information." /\
  bot_response "fact_check_request" =
    "My fact-checking capabilities are currently offline." /\
  bot_response "unknown" =
    "I'm sorry, I don't understand that yet. Can you please rephrase?" /\
  (forall label : string,
      label <> "greeting" -> label <> "goodbye" ->
      label <> "about_freaksearch" -> label <> "fact_check_request" ->
      bot_response label =
        "I'm sorry, I don't understand that yet. Can you please rephrase?") /\
  (forall (Features : Type) (a : artifacts Features) (request : ChatRequest)
          (label : string),
      predict_intent_with_custom_model a (message request) = Ok label ->
      respond (handle_chat a request) =
        {| status := 200; content := Text (bot_response label) |}).
Proof.
  repeat split; try reflexivity.
  - exact bot_response_default.
  - intros Features a request label H.
    rewrite (handle_chat_label a request label H). reflexivity.
Qed.

Lemma bot_response_mapping_witness :
  bot_response "weather" =
    "I'm sorry, I don't understand that yet. Can you please rephrase?" /\
  respond (handle_chat Reference.greeter {| message := "hi"; chatHistory := [] |}) =
    {| status := 200; content := Text "Hello there! How can I assist you today?" |}.
Proof.
  destruct bot_response_mapping as (_ & _ & _ & _ & _ & Hdefault & Hchat).
  split.
  - apply Hdefault; discriminate.
  - apply (Hchat _ Reference.greeter {| message := "hi"; chatHistory := [] |} "greeting").
    reflexivity.
Defined.

(** Claim C4.  [predict_intent_with_custom_model] returns "unknown"
    whenever either artifact is missing, and whenever the vectorizer, the
    model or the extraction of the first prediction fails with an
    [Exception]; no [Exception] ever leaves the function; and with the
    classifier disabled the chat endpoint answers every request with the
    fallback text. *)
Theorem classifier_degrades_to_unknown (Features : Type) :
  (forall (a : artifacts Features) (text : string),
      disabled a -> predict_intent_with_custom_model a text = Ok "unknown") /\
  (forall (v : Vectorizer Features) (m : Model Features) (text : string) (e : exn),
      is_Exception e = true ->
      transform v [text] = Raise e \/
      (exists f, transform v [text] = Ok f /\
                 (predict m f = Raise e \/ predict m f = Ok [])) ->
      predict_intent_with_custom_model
        {| vectorizer := Some v; model := Some m |} text = Ok "unknown") /\
  (forall (a : artifacts Features) (text : string) (e : exn),
      predict_intent_with_custom_model a text = Raise e ->
      is_Exception e = false) /\
  (forall (a : artifacts Features) (request : ChatRequest),
      disabled a ->
      respond (handle_chat a request) =
        {| status := 200;
           content := Text "I'm sorry, I don't understand that yet. Can you please rephrase?" |}).
Proof.
  split; [| split; [| split]].
  - intros a text Hd. exact (predict_intent_disabled a text Hd).
  - intros v m text e He Hfail.
    unfold predict_intent_with_custom_model, rtry; simpl.
    destruct Hfail as [Ht | (f & Ht & [Hp | Hp])]; rewrite Ht; simpl.
    + rewrite He; reflexivity.
    + rewrite Hp; simpl. rewrite He; reflexivity.
    + rewrite Hp; reflexivity.
  - intros [[v |] [m |]] text e H.
    + exact (predict_intent_absorbs v m text e H).
    + discriminate H.
    + discriminate H.
    + discriminate H.
  - intros a request Hd. unfold handle_chat.
    rewrite (predict_intent_disabled a (message request) Hd). reflexivity.
Qed.

Lemma classifier_degrades_to_unknown_witness :
  predict_intent_with_custom_model Reference.no_artifacts "hi" = Ok "unknown" /\
  predict_intent_with_custom_model
    {| vectorizer := Some Reference.broken_vectorizer;
       model := Some Reference.echo_model |} "hi" = Ok "unknown" /\
  respond (handle_chat Reference.no_artifacts {| message := "hi"; chatHistory := [] |}) =
    {| status := 200;
       content := Text "I'm sorry, I don't understand that yet. Can you please rephrase?" |}.
Proof.
  destruct (classifier_degrades_to_unknown (list string)) as (Hd & Hf & _ & Hc).
  split; [| split].
  - apply Hd. left; reflexivity.
  - apply (Hf Reference.broken_vectorizer Reference.echo_model "hi"
              (PyExc ValueError "empty vocabulary")).
    + reflexivity.
    + left; reflexivity.
  - apply Hc. left; reflexivity.
Defined.

(** Counterexample to claim C5 as stated: the vectorizer pickle cannot be
    read ([PermissionError], not [FileNotFoundError]); the exception
    escapes the module body and the application does not start. *)
Lemma load_artifacts_unreadable_is_fatal :
  load_vectorizer Reference.files_unreadable =
    Raise (PyExc PermissionError "Permission denied") /\
  load_artifacts Reference.files_unreadable =
    Raise (PyExc PermissionError "Permission denied").
Proof. split; reflexivity. Qed.

(** What start-up does with a failed load: the module-level handler
    absorbs the exception when it is a [FileNotFoundError] and lets it
    escape otherwise. *)
Lemma load_artifacts_on_failure (Features : Type)
    (fs : artifact_files Features) (e : exn) :
  load_vectorizer fs = Raise e \/
  (exists v, load_vectorizer fs = Ok v /\ load_model fs = Raise e) ->
  load_artifacts fs = if is_FileNotFoundError e then Ok both_none else Raise e.
Proof.
  unfold load_artifacts, rtry.
  intros [Hv | (v & Hv & Hm)].
  - rewrite Hv; simpl. reflexivity.
  - rewrite Hv, Hm; simpl. reflexivity.
Qed.

(** Claim C5, amended.  When loading either artifact fails with
    [FileNotFoundError], start-up completes, both globals are [None], and
    the classifier answers "unknown" for every text from then on.  When
    loading either artifact fails with any other exception, that exception
    is not caught and escapes the module body. *)
Theorem load_artifacts_missing_file (Features : Type)
    (fs : artifact_files Features) (e : exn) :
  load_vectorizer fs = Raise e \/
  (exists v, load_vectorizer fs = Ok v /\ load_model fs = Raise e) ->
  (is_FileNotFoundError e = true ->
   load_artifacts fs = Ok both_none /\
   (forall text : string,
       predict_intent_with_custom_model (Features := Features) both_none text =
       Ok "unknown") /\
   (forall request : ChatRequest,
       respond (handle_chat (Features := Features) both_none request) =
       {| status := 200;
          content := Text "I'm sorry, I don't understand that yet. Can you please rephrase?" |})) /\
  (is_FileNotFoundError e = false -> load_artifacts fs = Raise e).
Proof.
  intros Hfail.
  pose proof (load_artifacts_on_failure Features fs e Hfail) as H.
  split; intros He; rewrite He in H.
  - split; [exact H | split; reflexivity].
  - exact H.
Qed.

Lemma load_artifacts_missing_file_witness :
  load_artifacts Reference.files_absent = Ok Reference.no_artifacts /\
  load_artifacts
    {| load_vectorizer := Ok Reference.broken_vectorizer;
       load_model := Raise (PyExc UnpicklingError "invalid load key") |} =
  Raise (PyExc UnpicklingError "invalid load key").
Proof.
  split.
  - apply (load_artifacts_missing_file (list string) Reference.files_absent
             (PyExc FileNotFoundError "No such file or directory")).
    + left; reflexivity.
    + reflexivity.
  - apply (load_artifacts_missing_file (list string)
             {| load_vectorizer := Ok Reference.broken_vectorizer;
                load_model := Raise (PyExc UnpicklingError "invalid load key") |}
             (PyExc UnpicklingError "invalid load key")).
    + right. exists Reference.broken_vectorizer. split; reflexivity.
    + reflexivity.
Defined.

(** Claim C9.  The reply of the chatbot endpoint is a function of the
    [message] field alone: two requests with the same message and any two
    chat histories receive the same response. *)
Theorem handle_chat_ignores_history (Features : Type) (a : artifacts Features)
    (r1 r2 : ChatRequest) :
  message r1 = message r2 ->
  respond (handle_chat a r1) = respond (handle_chat a r2).
Proof. unfold handle_chat. intros ->. reflexivity. Qed.

Lemma handle_chat_ignores_history_witness :
  respond (handle_chat Reference.greeter {| message := "hi"; chatHistory := [] |}) =
  respond (handle_chat Reference.greeter
             {| message := "hi";
                chatHistory := [ {| role := "user"; parts := [ {| text := "bye" |} ] |} ] |}).
Proof.
  apply (handle_chat_ignores_history (list string) Reference.greeter).
  reflexivity.
Defined.

(* ===================================================================== *)
(** ** Properties of the credential store *)
(* ===================================================================== *)

Section Select.
Variable name : string.

Lemma first_match_none (table : list user_row) :
  hd_error (filter (matches name) table) = None <-> ~ has_user table name.
Proof.
  unfold has_user, usernames.
  induction table as [| r table IH]; simpl.
  - split; [intros _ [] | reflexivity].
  - unfold matches at 1.
    destruct (String.eqb_spec (db_username r) name) as [E | E]; simpl.
    + split; [discriminate | intros H; exfalso; apply H; left; exact E].
    + rewrite IH. split.
      * intros H [H' | H']; [exact (E H') | exact (H H')].
      * intros H H'; apply H; right; exact H'.
Qed.

Lemma first_match_some (table : list user_row) (row : user_row) :
  hd_error (filter (matches name) table) = Some row ->
  In row table /\ db_username row = name.
Proof.
  intros H.
  assert (Hin : In row (filter (matches name) table)).
  { destruct (filter _ table); [discriminate | injection H as ->; left; reflexivity]. }
  apply filter_In in Hin. destruct Hin as [Hin Heq].
  split; [exact Hin | apply String.eqb_eq; exact Heq].
Qed.
End Select.

Lemma unique_row (table : list user_row) (r1 r2 : user_row) :
  NoDup (usernames table) -> In r1 table -> In r2 table ->
  db_username r1 = db_username r2 -> r1 = r2.
Proof.
  unfold usernames. induction table as [| r table IH]; simpl.
  - intros _ [].
  - intros Hnd [-> | H1] [-> | H2] Heq; inversion Hnd as [| ? ? Hnotin Hnd']; subst.
    + reflexivity.
    + exfalso; apply Hnotin. rewrite Heq. apply in_map; exact H2.
    + exfalso; apply Hnotin. rewrite <- Heq. apply in_map; exact H1.
    + exact (IH Hnd' H1 H2 Heq).
Qed.


Section StoreProperties.
Variable pwd_context : CryptContext.

(** [login_user] sends no statement that writes. *)
Lemma login_user_frame (user : UserAuth) (env : db_env) (s : session) :
  users (snd (login_user pwd_context user env s)) = users s.
Proof.
  unfold_handlers. repeat (case_outcome; try reflexivity).
Qed.

(** A register call either leaves the table as it was or appends one row
    whose username the table did not hold. *)
Lemma register_user_step (user : UserAuth) (env : db_env) (table : list user_row) :
  let table' := users (snd (register_user pwd_context user env (fresh_session table))) in
  table' = table \/
  (exists hashed,
      table' = table ++ [{| db_username := username user; password_hash := hashed |}] /\
      ~ has_user table (username user)).
Proof.
  unfold fresh_session. unfold_handlers. simpl.
  repeat (case_outcome; try (left; reflexivity)).
  all: right; eexists; split; [reflexivity |].
  all: match goal with
       | H : hd_error _ = None |- _ =>
           rewrite app_nil_r in H; apply first_match_none; exact H
       end.
Qed.
End StoreProperties.

Section Endpoints.
Variable pwd_context : CryptContext.

(** [login_user] on a store that answers. *)
Lemma login_user_available (env : db_env) (user : UserAuth) (table : list user_row) :
  store_available env ->
  login_user pwd_context user env (fresh_session table) =
  (match hd_error (filter (matches (username user)) table) with
   | None => Raise (HTTPException 401 "Invalid username or password.")
   | Some row =>
       match verify_password pwd_context (password user) (password_hash row) with
       | Ok true => Ok (Message "Login successful!")
       | Ok false => Raise (HTTPException 401 "Invalid username or password.")
       | Raise e => Raise e
       end
   end, fresh_session table).
Proof.
  intros [Hc Hs]. unfold fresh_session. unfold_handlers. simpl.
  rewrite Hc; simpl. rewrite Hs; simpl. rewrite app_nil_r.
  destruct (hd_error _) as [row |]; simpl; [| reflexivity].
  destruct (ctx_verify _ _ _) as [[|] | e]; reflexivity.
Qed.



(** [register_user] when the [INSERT] or the [COMMIT] is refused. *)
Lemma register_user_refused (env : db_env) (user : UserAuth) (table : list user_row)
    (hashed msg : string) :
  store_available env ->
  ~ has_user table (username user) ->
  hash_password pwd_context (salt env) (password user) = Ok hashed ->
  insert_fault env = Some (MySQLError, msg) \/
  (insert_fault env = None /\ commit_fault env = Some (MySQLError, msg)) ->
  register_user pwd_context user env (fresh_session table) =
  (match rollback_fault env with
   | None => Raise (HTTPException 500 ("Failed to register user: " ++ msg))
   | Some e => Raise (exn_of e)
   end, fresh_session table).
Proof.
  intros [Hc Hs] Hfresh Hh Hfault. apply first_match_none in Hfresh.
  unfold fresh_session, hash_password in *. unfold_handlers. simpl.
  rewrite Hc; simpl. rewrite Hs; simpl. rewrite app_nil_r, Hfresh; simpl.
  rewrite Hh; simpl.
  destruct Hfault as [Hi | [Hi Hk]]; rewrite Hi; simpl; [| rewrite Hk; simpl].
  - destruct (rollback_fault env); reflexivity.
  - destruct (rollback_fault env); reflexivity.
Qed.

End Endpoints.




(** Claim C10.  A login call leaves the [users] table as it found it,
    whatever its outcome and whatever the store does. *)
Theorem login_user_leaves_table (pwd_context : CryptContext) (user : UserAuth)
    (env : db_env) :
  (forall s : session, users (snd (login_user pwd_context user env s)) = users s) /\
  (forall table : list user_row,
      snd (serve (login_user pwd_context user) env table) = table).
Proof.
  split.
  - intros s. apply login_user_frame.
  - intros table. unfold serve.
    pose proof (login_user_frame pwd_context user env
                  {| users := table; pending := [] |}) as H.
    destruct (login_user pwd_context user env _) as [r s]. exact H.
Qed.




(** Claim C6.  A register call that passes the uniqueness check and whose
    [INSERT] or [COMMIT] then fails with a store error is answered 500 and
    leaves the store exactly as it was: the table is unchanged, no
    uncommitted row remains, and every later request at any endpoint is
    served as if the call had not been made. *)
Theorem register_user_write_failure (pwd_context : CryptContext) (env : db_env)
    (user : UserAuth) (table : list user_row) (hashed msg : string) :
  store_available env ->
  ~ has_user table (username user) ->
  hash_password pwd_context (salt env) (password user) = Ok hashed ->
  insert_fault env = Some (MySQLError, msg) \/
  (insert_fault env = None /\ commit_fault env = Some (MySQLError, msg)) ->
  status (fst (serve (register_user pwd_context user) env table)) = 500 /\
  (rollback_fault env = None ->
   fst (serve (register_user pwd_context user) env table) =
     {| status := 500; content := Detail ("Failed to register user: " ++ msg) |}) /\
  snd (register_user pwd_context user env (fresh_session table)) =
    fresh_session table /\
  (forall (handler : M body) (env' : db_env),
      serve handler env' (snd (serve (register_user pwd_context user) env table)) =
      serve handler env' table).
Proof.
  intros Hav Hfresh Hh Hfault. unfold serve.
  rewrite (register_user_refused pwd_context env user table hashed msg
             Hav Hfresh Hh Hfault).
  simpl. repeat split.
  - destruct (rollback_fault env) as [[c m] |]; reflexivity.
  - intros ->. reflexivity.
Qed.

Lemma register_user_write_failure_witness :
  fst (serve (register_user Reference.context Reference.alice)
         Reference.commit_refused []) =
    {| status := 500;
       content := Detail "Failed to register user: 2013: Lost connection to MySQL server" |} /\
  snd (register_user Reference.context Reference.alice Reference.commit_refused
         (fresh_session [])) = fresh_session [].
Proof.
  destruct (register_user_write_failure Reference.context Reference.commit_refused
              Reference.alice [] "$2b$pw1$s" "2013: Lost connection to MySQL server")
    as (_ & Hresp & Hstate & _).
  - split; reflexivity.
  - intros [].
  - reflexivity.
  - right; split; reflexivity.
  - split; [exact (Hresp eq_refl) | exact Hstate].
Defined.

(** Counterexample to claim C8 as stated: a stored string that is not a
    bcrypt hash makes verification raise [UnknownHashError], and the login
    that meets it is answered 500 rather than refused with 401. *)
Lemma verify_password_unknown_hash :
  verify_password Reference.context "pw1" "not-a-bcrypt-hash" =
    Raise (PyExc UnknownHashError "hash could not be identified") /\
  fst (serve (login_user Reference.context Reference.alice) (Reference.healthy "s")
         [{| db_username := "alice"; password_hash := "not-a-bcrypt-hash" |}]) =
    {| status := 500; content := Plain "Internal Server Error" |}.
Proof. split; reflexivity. Qed.

(** Claim C8, amended.  [verify_password] installs no handler of its own:
    it returns the boolean the password context returns and raises the
    exception the password context raises; a login that finds a stored
    hash on which verification raises a Python error is answered 500. *)
Theorem verify_password_transparent (pwd_context : CryptContext)
    (plain_password hashed_password : string) :
  (forall b : bool,
      ctx_verify pwd_context plain_password hashed_password = Ok b ->
      verify_password pwd_context plain_password hashed_password = Ok b) /\
  (forall e : exn,
      ctx_verify pwd_context plain_password hashed_password = Raise e ->
      verify_password pwd_context plain_password hashed_password = Raise e) /\
  (forall (env : db_env) (name : string) (table : list user_row)
          (cls : exn_class) (msg : string),
      store_available env ->
      hd_error (filter (matches name) table) =
        Some {| db_username := name; password_hash := hashed_password |} ->
      ctx_verify pwd_context plain_password hashed_password = Raise (PyExc cls msg) ->
      fst (serve (login_user pwd_context
                    {| username := name; password := plain_password |}) env table) =
        {| status := 500; content := Plain "Internal Server Error" |}).
Proof.
  split; [| split].
  - intros b H. exact H.
  - intros e H. exact H.
  - intros env name table cls msg Hav Hrow Hv. unfold serve.
      rewrite (login_user_available pwd_context env _ table Hav); simpl.
    rewrite Hrow; simpl. unfold verify_password. rewrite Hv. reflexivity.
Qed.

Lemma verify_password_transparent_witness :
  verify_password Reference.context "pw1" "$2b$pw1$s" = Ok true /\
  verify_password Reference.context "pw2" "$2b$pw1$s" = Ok false.
Proof.
  split.
  - apply (verify_password_transparent Reference.context "pw1" "$2b$pw1$s").
    reflexivity.
  - apply (verify_password_transparent Reference.context "pw2" "$2b$pw1$s").
    reflexivity.
Defined.

(* ===================================================================== *)
(** ** Further properties of the authentication endpoints *)
(* ===================================================================== *)

Section AuthLemmas.
Variable pwd_context : CryptContext.

(** The answer of [login_user] depends on the table only through the row
    the [SELECT] returns first. *)
Lemma login_user_first_match (user : UserAuth) (env : db_env)
    (t1 t2 : list user_row) :
  hd_error (filter (matches (username user)) t1) =
  hd_error (filter (matches (username user)) t2) ->
  fst (serve (login_user pwd_context user) env t1) =
  fst (serve (login_user pwd_context user) env t2).
Proof.
  intros H. unfold serve, fresh_session. unfold_handlers. simpl.
  destruct (connect env) as [[|] | [c m]]; simpl.
  - destruct (select_fault env) as [f |]; simpl; [reflexivity |].
    rewrite !app_nil_r, H.
    destruct (hd_error (filter (matches (username user)) t2)) as [row |]; simpl;
      [| reflexivity].
    destruct (ctx_verify _ _ _) as [[|] | e]; reflexivity.
  - reflexivity.
  - destruct c; reflexivity.
Qed.

Lemma first_match_app (name : string) (t added : list user_row) (row : user_row) :
  hd_error (filter (matches name) t) = Some row ->
  hd_error (filter (matches name) (t ++ added)) = Some row.
Proof.
  rewrite filter_app. destruct (filter (matches name) t); [discriminate |].
  intros H; exact H.
Qed.

Lemma first_match_snoc_other (name : string) (t : list user_row) (row : user_row) :
  db_username row <> name ->
  filter (matches name) (t ++ [row]) = filter (matches name) t.
Proof.
  intros Hne. rewrite filter_app; simpl. unfold matches at 2.
  apply String.eqb_neq in Hne. rewrite Hne. apply app_nil_r.
Qed.


(** Register calls only ever append. *)
Lemma register_all_extends (calls : list (db_env * UserAuth)) :
  forall table : list user_row,
    exists added,
      register_all pwd_context calls table = table ++ added /\
      length added <= length calls.
Proof.
  induction calls as [| [env user] calls IH]; intros table; simpl.
  - exists []. split; [symmetry; apply app_nil_r | apply Nat.le_refl].
  - unfold serve at 1.
    pose proof (register_user_step pwd_context user env table) as Hstep.
    simpl in Hstep.
    destruct (register_user pwd_context user env (fresh_session table)) as [r s].
    simpl in *.
    destruct Hstep as [-> | (hashed & -> & _)].
    + destruct (IH table) as (added & -> & Hlen).
      exists added. split; [reflexivity | lia].
    + destruct (IH (table ++ [{| db_username := username user;
                                 password_hash := hashed |}]))
        as (added & -> & Hlen).
      exists ({| db_username := username user; password_hash := hashed |} :: added).
      split; [rewrite <- app_assoc; reflexivity | simpl; lia].
Qed.
End AuthLemmas.

(** Property X1.  [get_db_connection] hands out a connection exactly when
    [mysql.connector.connect] returned an object that reports itself
    connected; it answers [None] when the connection attempt raised
    [mysql.connector.Error] or the object is not connected, lets every
    other exception of the connection attempt through unchanged (and
    raises nothing else), and never touches the store. *)
Theorem get_db_connection_outcome (env : db_env) (s : session) :
  snd (get_db_connection env s) = s /\
  ((exists conn, fst (get_db_connection env s) = Ok (Some conn)) <->
   connect env = ConnectOk true) /\
  (fst (get_db_connection env s) = Ok None <->
   connect env = ConnectOk false \/
   exists msg, connect env = ConnectRaises (MySQLError, msg)) /\
  (forall e, fst (get_db_connection env s) = Raise e -> is_mysql_Error e = false) /\
  (forall e,
     fst (get_db_connection env s) = Raise e <->
     exists cls msg,
       connect env = ConnectRaises (cls, msg) /\ cls <> MySQLError /\
       e = PyExc cls msg).
Proof.
  unfold get_db_connection, mysql_connect, try_except, bind, ret, is_connected.
  destruct (connect env) as [[|] | [c m]]; simpl.
  - repeat split; try discriminate.
    + eexists; reflexivity.
    + intros [H | [msg H]]; discriminate H.
    + intros (cls & msg & H & _); discriminate H.
  - repeat split; try discriminate.
    + intros [conn H]; discriminate H.
    + intros _; left; reflexivity.
    + intros (cls & msg & H & _); discriminate H.
  - destruct c; simpl; repeat split; try discriminate;
      try (intros [conn H]; discriminate H);
      try (intros [H | [msg H]]; discriminate H);
      try (intros e [= <-]; reflexivity);
      try (intros [= <-]; eexists; eexists;
           split; [reflexivity | split; [discriminate | reflexivity]]);
      try (intros (cls & msg & [= <- <-] & Hne & ->);
           first [reflexivity | exfalso; apply Hne; reflexivity]).
    intros _. right. exists m. reflexivity.
Qed.

Lemma get_db_connection_outcome_witness :
  (exists conn, fst (get_db_connection (Reference.healthy "s") (fresh_session [])) =
                Ok (Some conn)) /\
  fst (get_db_connection Scenarios.not_connected (fresh_session [])) = Ok None /\
  fst (get_db_connection Scenarios.misconfigured (fresh_session [])) =
    Raise (PyExc ValueError "port must be an integer").
Proof.
  split; [| split].
  - apply (get_db_connection_outcome (Reference.healthy "s") (fresh_session [])).
    reflexivity.
  - apply (get_db_connection_outcome Scenarios.not_connected (fresh_session [])).
    left; reflexivity.
  - apply (get_db_connection_outcome Scenarios.misconfigured (fresh_session [])).
    exists ValueError, "port must be an integer".
    split; [reflexivity | split; [discriminate | reflexivity]].
Defined.

(** Property X2.  Whenever no live connection is obtained (the attempt raised
    [mysql.connector.Error], or the object is not connected) both
    authentication endpoints answer 500 with detail "Database connection
    failed." and leave the table as it was. *)
Theorem auth_without_connection (pwd_context : CryptContext) (env : db_env)
    (user : UserAuth) (table : list user_row) :
  connect env = ConnectOk false \/
  (exists msg, connect env = ConnectRaises (MySQLError, msg)) ->
  serve (register_user pwd_context user) env table =
    ({| status := 500; content := Detail "Database connection failed." |}, table) /\
  serve (login_user pwd_context user) env table =
    ({| status := 500; content := Detail "Database connection failed." |}, table).
Proof.
  intros H. unfold serve, fresh_session. unfold_handlers.
  destruct H as [H | [msg H]]; rewrite H; simpl; split; reflexivity.
Qed.

Lemma auth_without_connection_witness :
  serve (login_user Reference.context Reference.alice) Scenarios.not_connected
    [Reference.alice_row] =
  ({| status := 500; content := Detail "Database connection failed." |},
   [Reference.alice_row]).
Proof.
  apply (auth_without_connection Reference.context Scenarios.not_connected
           Reference.alice [Reference.alice_row]).
  left; reflexivity.
Defined.

(** Property X3.  When the connection is obtained but the [SELECT] raises, neither
    endpoint handles the exception: the request is answered by the
    server-error middleware (500, plain "Internal Server Error"), not by a
    JSON detail, and the table is left as it was. *)
Theorem auth_select_failure (pwd_context : CryptContext) (env : db_env)
    (user : UserAuth) (table : list user_row) (e : py_error) :
  connect env = ConnectOk true ->
  select_fault env = Some e ->
  serve (register_user pwd_context user) env table =
    ({| status := 500; content := Plain "Internal Server Error" |}, table) /\
  serve (login_user pwd_context user) env table =
    ({| status := 500; content := Plain "Internal Server Error" |}, table).
Proof.
  intros Hc Hs. unfold serve, fresh_session. unfold_handlers.
  rewrite Hc; simpl. rewrite Hs; simpl. split; reflexivity.
Qed.

Lemma auth_select_failure_witness :
  serve (register_user Reference.context Reference.alice) Scenarios.select_refused [] =
  ({| status := 500; content := Plain "Internal Server Error" |}, []).
Proof.
  apply (auth_select_failure Reference.context Scenarios.select_refused
           Reference.alice [] (MySQLError, "1146: Table 'users' doesn't exist"));
    reflexivity.
Defined.



(** Property X5.  No sequence of register calls removes, reorders or rewrites a row: the
    table afterwards is the table before followed by at most one new row
    per call. *)
Theorem register_all_appends (pwd_context : CryptContext)
    (calls : list (db_env * UserAuth)) (table : list user_row) :
  (exists added,
      register_all pwd_context calls table = table ++ added /\
      length added <= length calls) /\
  (forall row, In row table -> In row (register_all pwd_context calls table)).
Proof.
  destruct (register_all_extends pwd_context calls table) as (added & Heq & Hlen).
  split.
  - exists added. split; assumption.
  - intros row Hin. rewrite Heq. apply in_or_app. left. exact Hin.
Qed.

Lemma register_all_appends_witness :
  In Reference.alice_row
    (register_all Reference.context
       [(Reference.healthy "t", Reference.alice);
        (Reference.healthy "u", Scenarios.bob)] [Reference.alice_row]).
Proof.
  apply (register_all_appends Reference.context
           [(Reference.healthy "t", Reference.alice);
            (Reference.healthy "u", Scenarios.bob)] [Reference.alice_row]).
  left; reflexivity.
Defined.

(** Property X6.  A registered user cannot be displaced: for a username the table
    already holds, every login request is answered after any sequence of
    register calls exactly as it was answered before. *)
Theorem login_stable_under_registration (pwd_context : CryptContext)
    (calls : list (db_env * UserAuth)) (table : list user_row)
    (env : db_env) (user : UserAuth) :
  has_user table (username user) ->
  fst (serve (login_user pwd_context user) env
         (register_all pwd_context calls table)) =
  fst (serve (login_user pwd_context user) env table).
Proof.
  intros Hheld.
  destruct (register_all_extends pwd_context calls table) as (added & -> & _).
  apply login_user_first_match.
  destruct (hd_error (filter (matches (username user)) table)) as [row |] eqn:E.
  - apply first_match_app. exact E.
  - apply first_match_none in E. contradiction.
Qed.

Lemma login_stable_under_registration_witness :
  fst (serve (login_user Reference.context Reference.alice) (Reference.healthy "s")
         (register_all Reference.context
            [(Reference.healthy "t",
              {| username := "alice"; password := "stolen" |})]
            [Reference.alice_row])) =
  fst (serve (login_user Reference.context Reference.alice) (Reference.healthy "s")
         [Reference.alice_row]).
Proof.
  apply (login_stable_under_registration Reference.context
           [(Reference.healthy "t", {| username := "alice"; password := "stolen" |})]
           [Reference.alice_row] (Reference.healthy "s") Reference.alice).
  left; reflexivity.
Defined.

(** Property X7.  Registering one username does not change how a login for a different
    username is answered, whatever the store does during either request. *)
Theorem register_other_user_frame (pwd_context : CryptContext)
    (env env' : db_env) (newcomer user : UserAuth) (table : list user_row) :
  username newcomer <> username user ->
  fst (serve (login_user pwd_context user) env'
         (snd (serve (register_user pwd_context newcomer) env table))) =
  fst (serve (login_user pwd_context user) env' table).
Proof.
  intros Hne. unfold serve at 2.
  pose proof (register_user_step pwd_context newcomer env table) as Hstep.
  simpl in Hstep.
  destruct (register_user pwd_context newcomer env (fresh_session table)) as [r s].
  simpl in *.
  destruct Hstep as [-> | (hashed & -> & _)]; [reflexivity |].
  apply login_user_first_match.
  rewrite first_match_snoc_other; [reflexivity | exact Hne].
Qed.

Lemma register_other_user_frame_witness :
  fst (serve (login_user Reference.context Reference.alice) (Reference.healthy "s")
         (snd (serve (register_user Reference.context Scenarios.bob)
                 (Reference.healthy "t") [Reference.alice_row]))) =
  fst (serve (login_user Reference.context Reference.alice) (Reference.healthy "s")
         [Reference.alice_row]).
Proof.
  apply (register_other_user_frame Reference.context (Reference.healthy "t")
           (Reference.healthy "s") Scenarios.bob Reference.alice [Reference.alice_row]).
  discriminate.
Defined.

(** Property X8.  The table gains a row exactly when [register_user] returns its success
    message: the new row then holds the given username with the hash the
    password context produced.  Whenever the handler raises, be it one of
    its own [HTTPException]s or an error it does not handle, the table is
    left as it was. *)
Theorem register_user_writes_iff_ok (pwd_context : CryptContext) (env : db_env)
    (user : UserAuth) (table : list user_row) :
  (forall b,
     fst (register_user pwd_context user env (fresh_session table)) = Ok b ->
     b = Message ("User '" ++ username user ++ "' registered successfully.") /\
     exists hashed,
       hash_password pwd_context (salt env) (password user) = Ok hashed /\
       snd (serve (register_user pwd_context user) env table) =
         table ++ [{| db_username := username user; password_hash := hashed |}]) /\
  (forall e,
     fst (register_user pwd_context user env (fresh_session table)) = Raise e ->
     snd (serve (register_user pwd_context user) env table) = table).
Proof.
  unfold serve, fresh_session. unfold_handlers. simpl.
  repeat (case_outcome;
          try (split; [intros ? H; discriminate H | intros; reflexivity])).
  all: split; [intros b [= <-] | intros e H; discriminate H].
  all: split; [reflexivity |].
  all: eexists; split; reflexivity.
Qed.

Lemma register_user_writes_iff_ok_witness :
  snd (serve (register_user Reference.context Reference.alice)
         Reference.commit_refused []) = [].
Proof.
  destruct (register_user_writes_iff_ok Reference.context Reference.commit_refused
              Reference.alice []) as [_ Hraise].
  apply (Hraise (HTTPException 500
                   "Failed to register user: 2013: Lost connection to MySQL server")).
  reflexivity.
Defined.

(** Property X9.  The login endpoint has four answers and no other, provided the
    password context raises Python errors only: 200 with "Login
    successful!", 401 with "Invalid username or password.", 500 with
    "Database connection failed.", and the plain 500 of an exception the
    handler does not catch. *)
Theorem login_user_answers (pwd_context : CryptContext) (env : db_env)
    (user : UserAuth) (table : list user_row) :
  verify_raises_python_errors pwd_context ->
  In (fst (serve (login_user pwd_context user) env table))
    [ {| status := 200; content := Message "Login successful!" |};
      {| status := 401; content := Detail "Invalid username or password." |};
      {| status := 500; content := Detail "Database connection failed." |};
      {| status := 500; content := Plain "Internal Server Error" |} ].
Proof.
  intros Hlib. unfold serve, fresh_session. unfold_handlers. simpl.
  repeat (case_outcome; try (simpl; tauto)).
  all: match goal with
       | H : ctx_verify _ _ _ = Raise _ |- _ =>
           destruct (Hlib _ _ _ H) as (cls & msg & Hcls); discriminate Hcls
       end.
Qed.

Lemma login_user_answers_witness :
  In (fst (serve (login_user Reference.context Reference.alice)
             (Reference.healthy "s") [Reference.alice_row]))
    [ {| status := 200; content := Message "Login successful!" |};
      {| status := 401; content := Detail "Invalid username or password." |};
      {| status := 500; content := Detail "Database connection failed." |};
      {| status := 500; content := Plain "Internal Server Error" |} ].
Proof.
  apply (login_user_answers Reference.context (Reference.healthy "s")
           Reference.alice [Reference.alice_row]).
  intros secret hashed e. simpl.
  destruct (Reference.identify hashed); intros [= <-].
  exists UnknownHashError, "hash could not be identified". reflexivity.
Defined.

(** Property X10.  A login for a username that is not registered and a login with a
    password that does not verify receive the same response: the answer
    does not reveal which usernames exist. *)
Theorem login_user_no_enumeration (pwd_context : CryptContext) (env : db_env)
    (unknown known : UserAuth) (table : list user_row) (row : user_row) :
  store_available env ->
  NoDup (usernames table) ->
  ~ has_user table (username unknown) ->
  In row table -> db_username row = username known ->
  verify_password pwd_context (password known) (password_hash row) = Ok false ->
  fst (serve (login_user pwd_context unknown) env table) =
  fst (serve (login_user pwd_context known) env table).
Proof.
  intros Hav Hnd Habsent Hin Hname Hv. unfold serve.
  rewrite !(login_user_available pwd_context env _ table Hav). simpl.
  apply first_match_none in Habsent. rewrite Habsent.
  destruct (hd_error (filter (matches (username known)) table)) as [found |] eqn:E.
  - apply first_match_some in E. destruct E as [Hfound Hfname].
    assert (found = row) as ->.
    { apply (unique_row table); try assumption. congruence. }
    rewrite Hv. reflexivity.
  - reflexivity.
Qed.

Lemma login_user_no_enumeration_witness :
  fst (serve (login_user Reference.context Scenarios.bob) (Reference.healthy "s")
         [Reference.alice_row]) =
  fst (serve (login_user Reference.context
                {| username := "alice"; password := "guess" |})
         (Reference.healthy "s") [Reference.alice_row]).
Proof.
  apply (login_user_no_enumeration Reference.context (Reference.healthy "s")
           Scenarios.bob {| username := "alice"; password := "guess" |}
           [Reference.alice_row] Reference.alice_row).
  - split; reflexivity.
  - repeat constructor. intros [].
  - intros [H | []]. discriminate H.
  - left; reflexivity.
  - reflexivity.
  - reflexivity.
Defined.

(* ===================================================================== *)
(** ** Further properties of the classifier and the chatbot *)
(* ===================================================================== *)

(** Property X11.  Loading is all or nothing.  When both pickles load the
    classifier holds both; a start-up that completes leaves the two globals
    either both set or both [None], the latter exactly when a load failed
    with [FileNotFoundError]; and start-up is aborted by an exception
    exactly when a load raised it and it is not a [FileNotFoundError]. *)
Theorem load_artifacts_all_or_nothing (Features : Type)
    (fs : artifact_files Features) :
  (forall v m, load_vectorizer fs = Ok v -> load_model fs = Ok m ->
     load_artifacts fs = Ok {| vectorizer := Some v; model := Some m |}) /\
  (forall a, load_artifacts fs = Ok a ->
     a = both_none \/
     exists v m, load_vectorizer fs = Ok v /\ load_model fs = Ok m /\
                 a = {| vectorizer := Some v; model := Some m |}) /\
  (load_artifacts fs = Ok both_none <->
   exists e, is_FileNotFoundError e = true /\
             (load_vectorizer fs = Raise e \/
              ((exists v, load_vectorizer fs = Ok v) /\ load_model fs = Raise e))) /\
  (forall e,
     load_artifacts fs = Raise e <->
     is_FileNotFoundError e = false /\
     (load_vectorizer fs = Raise e \/
      ((exists v, load_vectorizer fs = Ok v) /\ load_model fs = Raise e))).
Proof.
  assert (Hfail : forall e,
             load_vectorizer fs = Raise e \/
             ((exists v, load_vectorizer fs = Ok v) /\ load_model fs = Raise e) ->
             load_artifacts fs =
               if is_FileNotFoundError e then Ok both_none else Raise e).
  { intros e [Hv | [[v Hv] Hm]]; apply load_artifacts_on_failure.
    - left; exact Hv.
    - right; exists v; split; assumption. }
  split; [| split; [| split]].
  - intros v m Hv Hm. unfold load_artifacts, rtry. rewrite Hv, Hm. reflexivity.
  - unfold load_artifacts, rtry.
    destruct (load_vectorizer fs) as [v | ev]; simpl;
      [destruct (load_model fs) as [m | em]; simpl |].
    + intros a [= <-]. right. exists v, m. repeat split.
    + destruct (is_FileNotFoundError em); intros a [= <-]. left; reflexivity.
    + destruct (is_FileNotFoundError ev); intros a [= <-]. left; reflexivity.
  - split.
    + unfold load_artifacts, rtry.
      destruct (load_vectorizer fs) as [v | ev]; simpl;
        [destruct (load_model fs) as [m | em]; simpl |].
      * intros H; discriminate H.
      * destruct (is_FileNotFoundError em) eqn:E; intros H; [| discriminate H].
        exists em. split; [exact E |]. right. split; [exists v |]; reflexivity.
      * destruct (is_FileNotFoundError ev) eqn:E; intros H; [| discriminate H].
        exists ev. split; [exact E |]. left; reflexivity.
    + intros (e & He & Hload). rewrite (Hfail e Hload), He. reflexivity.
  - intros e. split.
    + unfold load_artifacts, rtry.
      destruct (load_vectorizer fs) as [v | ev]; simpl;
        [destruct (load_model fs) as [m | em]; simpl |].
      * intros H; discriminate H.
      * destruct (is_FileNotFoundError em) eqn:E; intros H; [discriminate H |].
        injection H as <-. split; [exact E |]. right. split; [exists v |]; reflexivity.
      * destruct (is_FileNotFoundError ev) eqn:E; intros H; [discriminate H |].
        injection H as <-. split; [exact E |]. left; reflexivity.
    + intros [He Hload]. rewrite (Hfail e Hload), He. reflexivity.
Qed.

Lemma load_artifacts_all_or_nothing_witness :
  load_artifacts
    {| load_vectorizer := Ok Reference.broken_vectorizer;
       load_model := Ok Reference.echo_model |} =
  Ok {| vectorizer := Some Reference.broken_vectorizer;
        model := Some Reference.echo_model |} /\
  load_artifacts Reference.files_unreadable =
    Raise (PyExc PermissionError "Permission denied") /\
  load_artifacts Reference.files_absent = Ok both_none.
Proof.
  split; [| split].
  - apply (load_artifacts_all_or_nothing (list string)
             {| load_vectorizer := Ok Reference.broken_vectorizer;
                load_model := Ok Reference.echo_model |});
      reflexivity.
  - apply (load_artifacts_all_or_nothing (list string) Reference.files_unreadable).
    split; [reflexivity | left; reflexivity].
  - apply (load_artifacts_all_or_nothing (list string) Reference.files_absent).
    exists (PyExc FileNotFoundError "No such file or directory").
    split; [reflexivity | left; reflexivity].
Defined.

(** Property X12.  Whatever the classifier does, the chatbot endpoint either answers 200
    with one of its five fixed replies or is interrupted by an exception
    that is not an [Exception]; no request gets any other text. *)
Theorem handle_chat_reply_range (Features : Type) (a : artifacts Features)
    (request : ChatRequest) :
  (exists reply,
      In reply [ "Hello there! How can I assist you today?";
                 "Goodbye! Have a great day.";
                 "FreakSearch is a platform for verified information.";
                 "My fact-checking capabilities are currently offline.";
                 "I'm sorry, I don't understand that yet. Can you please rephrase?" ] /\
      respond (handle_chat a request) = {| status := 200; content := Text reply |}) \/
  (exists e, handle_chat a request = Raise e /\ is_Exception e = false).
Proof.
  unfold handle_chat.
  destruct (predict_intent_with_custom_model a (message request)) as [label | e] eqn:E.
  - left. exists (bot_response label). split; [| reflexivity].
    unfold bot_response, fallback_response.
    repeat match goal with
           | |- context [if ?c then _ else _] => destruct c
           end; simpl; tauto.
  - right. exists e. split; [reflexivity |].
    destruct a as [[v |] [m |]].
    + exact (predict_intent_absorbs v m (message request) e E).
    + discriminate E.
    + discriminate E.
    + discriminate E.
Qed.

(** Property X13.  With both artifacts loaded and working, the request's message is
    vectorised alone, the first label the model predicts decides the reply,
    and any further predictions are ignored. *)
Theorem handle_chat_first_prediction (Features : Type)
    (v : Vectorizer Features) (m : Model Features) (request : ChatRequest)
    (f : Features) (label : string) (others : list string) :
  transform v [message request] = Ok f ->
  predict m f = Ok (label :: others) ->
  predict_intent_with_custom_model
    {| vectorizer := Some v; model := Some m |} (message request) = Ok label /\
  respond (handle_chat {| vectorizer := Some v; model := Some m |} request) =
    {| status := 200; content := Text (bot_response label) |}.
Proof.
  intros Ht Hp.
  assert (H : predict_intent_with_custom_model
                {| vectorizer := Some v; model := Some m |} (message request) =
              Ok label).
  { unfold predict_intent_with_custom_model, rtry, rbind; simpl.
    rewrite Ht, Hp. reflexivity. }
  split; [exact H |]. unfold handle_chat. rewrite H. reflexivity.
Qed.

Lemma handle_chat_first_prediction_witness :
  respond (handle_chat Reference.greeter {| message := "hi"; chatHistory := [] |}) =
  {| status := 200; content := Text (bot_response "greeting") |}.
Proof.
  apply (handle_chat_first_prediction (list string)
           {| transform := fun docs => Ok docs |}
           {| predict := fun docs =>
                Ok (map (fun d => if d =? "hi" then "greeting" else "unknown") docs) |}
           {| message := "hi"; chatHistory := [] |} ["hi"] "greeting" []);
    reflexivity.
Defined.

(* ===================================================================== *)
(** ** Properties of the media upload *)
(* ===================================================================== *)

Section UploadProperties.
Context {Path : Type}.
Variable Path_eq_dec : forall p q : Path, {p = q} + {p <> q}.
Variable joinpath : Path -> string -> Path.
Variable UPLOADS_DIR : Path.

Lemma write_file_same (p : Path) (data : string) (fs : filesystem Path) :
  write_file Path_eq_dec p data fs p = Some data.
Proof.
  unfold write_file. destruct (Path_eq_dec p p) as [_ | H]; [reflexivity | contradiction].
Qed.

Lemma write_file_other (p q : Path) (data : string) (fs : filesystem Path) :
  q <> p -> write_file Path_eq_dec p data fs q = fs q.
Proof.
  intros Hne. unfold write_file.
  destruct (Path_eq_dec q p) as [H | _]; [contradiction | reflexivity].
Qed.
End UploadProperties.

(** Property X14.  A successful upload is answered 200 with "File '<filename>' uploaded
    successfully.", leaves at [UPLOADS_DIR / filename] a file that holds
    exactly the uploaded bytes, and changes no other file. *)
Theorem upload_media_stores_file (Path : Type)
    (Path_eq_dec : forall p q : Path, {p = q} + {p <> q})
    (joinpath : Path -> string -> Path) (UPLOADS_DIR : Path)
    (file : UploadFile) (fs : filesystem Path) (data : string) :
  read file = Ok data ->
  respond (fst (upload_media Path_eq_dec joinpath UPLOADS_DIR None file fs)) =
    {| status := 200;
       content := Message ("File '" ++ filename file ++ "' uploaded successfully.") |} /\
  snd (upload_media Path_eq_dec joinpath UPLOADS_DIR None file fs)
    (joinpath UPLOADS_DIR (filename file)) = Some data /\
  (forall q, q <> joinpath UPLOADS_DIR (filename file) ->
     snd (upload_media Path_eq_dec joinpath UPLOADS_DIR None file fs) q = fs q).
Proof.
  intros Hread. unfold upload_media. rewrite Hread. simpl.
  split; [reflexivity | split].
  - apply write_file_same.
  - intros q Hq. rewrite !write_file_other by exact Hq. reflexivity.
Qed.

Lemma upload_media_stores_file_witness :
  snd (upload_media string_dec Scenarios.joinpath Scenarios.uploads_dir None
         Scenarios.cat_png Scenarios.empty_disk) "/srv/uploads/cat.png" = Some "PNG1".
Proof.
  apply (upload_media_stores_file string string_dec Scenarios.joinpath
           Scenarios.uploads_dir Scenarios.cat_png Scenarios.empty_disk "PNG1").
  reflexivity.
Defined.

(** Property X15.  Uploads under one filename overwrite each other: after two successful
    uploads with the same filename every file is as the second upload
    alone would have left it, and the named file holds the second
    content. *)
Theorem upload_media_last_write_wins (Path : Type)
    (Path_eq_dec : forall p q : Path, {p = q} + {p <> q})
    (joinpath : Path -> string -> Path) (UPLOADS_DIR : Path)
    (first second : UploadFile) (fs : filesystem Path) (d1 d2 : string) :
  filename first = filename second ->
  read first = Ok d1 -> read second = Ok d2 ->
  let after_both :=
    snd (upload_media Path_eq_dec joinpath UPLOADS_DIR None second
           (snd (upload_media Path_eq_dec joinpath UPLOADS_DIR None first fs))) in
  after_both (joinpath UPLOADS_DIR (filename second)) = Some d2 /\
  (forall q,
     after_both q =
     snd (upload_media Path_eq_dec joinpath UPLOADS_DIR None second fs) q).
Proof.
  intros Hname H1 H2. unfold upload_media. rewrite H1, H2, Hname. simpl.
  split.
  - apply write_file_same.
  - intros q. unfold write_file. destruct (Path_eq_dec q _); reflexivity.
Qed.

Lemma upload_media_last_write_wins_witness :
  snd (upload_media string_dec Scenarios.joinpath Scenarios.uploads_dir None
         Scenarios.cat_png_again
         (snd (upload_media string_dec Scenarios.joinpath Scenarios.uploads_dir None
                 Scenarios.cat_png Scenarios.empty_disk)))
    "/srv/uploads/cat.png" = Some "PNG2".
Proof.
  apply (upload_media_last_write_wins string string_dec Scenarios.joinpath
           Scenarios.uploads_dir Scenarios.cat_png Scenarios.cat_png_again
           Scenarios.empty_disk "PNG1" "PNG2"); reflexivity.
Defined.

(** Property X16.  A failed upload is not harmless.  The target is opened for writing
    before the request body is read, so when reading raises, the request
    is answered with the error and the file of that name is left empty,
    whatever it held before; only when the open itself fails is the file
    system untouched. *)
Theorem upload_media_failed_read_truncates (Path : Type)
    (Path_eq_dec : forall p q : Path, {p = q} + {p <> q})
    (joinpath : Path -> string -> Path) (UPLOADS_DIR : Path)
    (file : UploadFile) (fs : filesystem Path) (e : exn) :
  read file = Raise e ->
  fst (upload_media Path_eq_dec joinpath UPLOADS_DIR None file fs) = Raise e /\
  snd (upload_media Path_eq_dec joinpath UPLOADS_DIR None file fs)
    (joinpath UPLOADS_DIR (filename file)) = Some "" /\
  (forall q, q <> joinpath UPLOADS_DIR (filename file) ->
     snd (upload_media Path_eq_dec joinpath UPLOADS_DIR None file fs) q = fs q) /\
  (forall f,
     upload_media Path_eq_dec joinpath UPLOADS_DIR (Some f) file fs =
     (Raise (exn_of f), fs)).
Proof.
  intros Hread. unfold upload_media. rewrite Hread. simpl.
  split; [reflexivity | split; [| split]].
  - apply write_file_same.
  - intros q Hq. apply write_file_other. exact Hq.
  - intros f. reflexivity.
Qed.

Lemma upload_media_failed_read_truncates_witness :
  snd (upload_media string_dec Scenarios.joinpath Scenarios.uploads_dir None
         Scenarios.cat_png_broken
         (snd (upload_media string_dec Scenarios.joinpath Scenarios.uploads_dir None
                 Scenarios.cat_png Scenarios.empty_disk)))
    "/srv/uploads/cat.png" = Some "".
Proof.
  apply (upload_media_failed_read_truncates string string_dec Scenarios.joinpath
           Scenarios.uploads_dir Scenarios.cat_png_broken
           (snd (upload_media string_dec Scenarios.joinpath Scenarios.uploads_dir None
                   Scenarios.cat_png Scenarios.empty_disk))
           (PyExc ValueError "I/O operation on closed file")).
  reflexivity.
Defined.
